(** * xk_bot: rate limiter, anti-spam gate and password-gated cache clear

    A shallow embedding of [xk_bot.py].  The bot's process-wide state (the
    [user_data] dict, the framework's per-chat FSM storage and the messages
    sent so far) is threaded explicitly; every call of [datetime.now()] is an
    input of the function that makes it.  Handling of one message is taken
    as atomic. *)

From stdpp Require Import gmap strings list fin_maps pretty sorting.
From Stdlib Require Import ZArith Lia Ascii.

(** ** Time

    A [datetime] is a number of microseconds, the resolution of Python's
    [datetime]; [timedelta(minutes=n)] is [n] times sixty million of them. *)

Definition datetime : Type := Z.
Bind Scope Z_scope with datetime.

Definition timedelta_minutes (n : Z) : Z := (n * 60000000)%Z.
Definition timedelta_seconds (n : Z) : Z := (n * 1000000)%Z.

(** ** Configuration (module level, lines 18-35) *)

Record Config := {
  BOT_TOKEN : option string;
  CHANNEL_LINK : option string;
  PHOTO_URL : option string;
  CLEAR_CACHE_PASSWORD : option string
}.

(** Python truth value of an [Optional[str]]: [None] and the empty string
    are false. *)
Definition truthy (v : option string) : bool :=
  match v with
  | Some s => negb (String.eqb s "")
  | None => false
  end.

Definition os_getenv (environ : gmap string string) (k : string) : option string :=
  environ !! k.

Inductive Startup :=
  | Raised_ValueError (msg : string)
  | Loaded (cfg : Config) (stdout : list string).

(** Lines 20-23: the four settings as read from the environment. *)
Definition read_settings (environ : gmap string string) : Config :=
  {| BOT_TOKEN := os_getenv environ "BOT_TOKEN";
     CHANNEL_LINK := os_getenv environ "CHANNEL_LINK";
     PHOTO_URL := os_getenv environ "PHOTO_URL";
     CLEAR_CACHE_PASSWORD := os_getenv environ "CLEAR_CACHE_PASSWORD" |}.

Definition password_warning : string :=
  "⚠️ Warning: CLEAR_CACHE_PASSWORD not set → /clearcache disabled".

(** Lines 25-30: the checks made while the module is loaded, before
    anything is served. *)
Definition load_module (environ : gmap string string) : Startup :=
  let cfg := read_settings environ in
  if negb (truthy (BOT_TOKEN cfg)) then
    Raised_ValueError "❌ BOT_TOKEN not found!"
  else if negb (truthy (CHANNEL_LINK cfg)) then
    Raised_ValueError "❌ CHANNEL_LINK not found"
  else if negb (truthy (CLEAR_CACHE_PASSWORD cfg)) then
    Loaded cfg [password_warning]
  else
    Loaded cfg [].

Definition MAX_REQUESTS_PER_MINUTE : nat := 5.
Definition WARNING_THRESHOLD : nat := 4.
Definition BLOCK_DURATION_MINUTES : Z := 3.

(** ** Rate tracker (lines 37-38, 58-75) *)

Record UserData := {
  requests : list datetime;
  blocked_until : option datetime
}.

(** The literal [{"requests": [], "blocked_until": None}] handed to
    [dict.get] as default. *)
Definition fresh_entry : UserData :=
  {| requests := []; blocked_until := None |}.

(** [data = user_data.get(user_id, default)] yields the stored dict itself
    when the key is present, so a later mutation of [data] is a mutation of
    the store; when the key is absent, [data] is the throw-away default and
    the store does not see the mutation. *)
Definition alias_write (stored : option UserData) (user_id : Z) (data : UserData)
    (user_data : gmap Z UserData) : gmap Z UserData :=
  match stored with
  | Some _ => <[user_id := data]> user_data
  | None => user_data
  end.

Definition is_blocked (now : datetime) (user_id : Z) (user_data : gmap Z UserData)
    : (bool * option datetime) * gmap Z UserData :=
  let stored := user_data !! user_id in
  let data := default fresh_entry stored in
  let expired :=
    match blocked_until data with
    | Some b => bool_decide (b < now)%Z
    | None => false
    end in
  let data' := if expired then {| requests := []; blocked_until := None |} else data in
  let user_data' := if expired then alias_write stored user_id data' user_data else user_data in
  ((bool_decide (blocked_until data' ≠ None), blocked_until data'), user_data').

Definition record_request (now : datetime) (user_id : Z) (user_data : gmap Z UserData)
    : gmap Z UserData :=
  let one_minute_ago := (now - timedelta_minutes 1)%Z in
  let data := default fresh_entry (user_data !! user_id) in
  let kept := filter (λ t, (one_minute_ago < t)%Z) (requests data) in
  <[user_id := {| requests := kept ++ [now]; blocked_until := blocked_until data |}]> user_data.

(** What a later reader of the store sees for a user. *)
Definition requests_of (user_id : Z) (user_data : gmap Z UserData) : list datetime :=
  requests (default fresh_entry (user_data !! user_id)).

Definition blocked_until_of (user_id : Z) (user_data : gmap Z UserData) : option datetime :=
  blocked_until (default fresh_entry (user_data !! user_id)).

(** ** Messages, replies and the process state *)

Record Message := {
  chat_id : Z;
  from_user_id : Z;
  text : option string;
  message_caption : option string
}.

Inductive InlineKeyboardButton := Button (label : string) (url : option string).

Inductive Reply :=
  | answer (body : string) (html : bool) (reply_markup : list (list InlineKeyboardButton))
  | answer_photo (photo : option string) (caption : string) (html : bool)
      (reply_markup : list (list InlineKeyboardButton)).

Inductive ClearCacheStates := waiting_for_password.

Global Instance ClearCacheStates_eq_dec : EqDecision ClearCacheStates.
Proof. solve_decision. Defined.

(** [fsm] is the framework's in-memory FSM storage; with the dispatcher's
    default strategy a state is kept per user in a chat.  No entry means no
    state (the Idle session). *)
Record World := {
  user_data : gmap Z UserData;
  fsm : gmap (Z * Z) ClearCacheStates;
  sent : list (Z * Reply)
}.

Definition initial_world : World :=
  {| user_data := ∅; fsm := ∅; sent := [] |}.

Definition with_user_data (ud : gmap Z UserData) (w : World) : World :=
  {| user_data := ud; fsm := fsm w; sent := sent w |}.

Definition fsm_key (m : Message) : Z * Z := (chat_id m, from_user_id m).

Definition set_state (m : Message) (s : option ClearCacheStates) (w : World) : World :=
  {| user_data := user_data w;
     fsm := match s with
            | Some st => <[fsm_key m := st]> (fsm w)
            | None => delete (fsm_key m) (fsm w)
            end;
     sent := sent w |}.

Definition get_state (m : Message) (w : World) : option ClearCacheStates :=
  fsm w !! fsm_key m.

Definition reply (m : Message) (r : Reply) (w : World) : World :=
  {| user_data := user_data w; fsm := fsm w; sent := sent w ++ [(chat_id m, r)] |}.

(** The values read from [datetime.now()] while one message is handled: in
    [is_blocked] (line 59), in [record_request] (line 69) and in [start]
    (line 88).  The reading of line 50 is never used. *)
Record Clock := {
  now_is_blocked : datetime;
  now_record_request : datetime;
  now_start : datetime
}.

(** ** Handlers (lines 77-133) *)

Definition warning_text : string := "⚠Warning️! You're sending too many requests.".

Definition block_text : string :=
  "🚫Too many requests! You Blocked for " +:+ pretty BLOCK_DURATION_MINUTES +:+ " minutes.".

Definition caption : string := "
🔥 <b>Python Masters Channel</b> 🔥
Daily Python tutorials, projects, tips & tricks!
10k+ developers already learning 🚀
Join කරලා level up වෙන්න! 👇
    ".

Definition keyboard (cfg : Config) : list (list InlineKeyboardButton) :=
  [[Button "🚀 Join Channel Now" (CHANNEL_LINK cfg)]].

Definition promo (cfg : Config) : Reply :=
  if truthy (PHOTO_URL cfg) then answer_photo (PHOTO_URL cfg) caption true (keyboard cfg)
  else answer caption true (keyboard cfg).

Definition prompt_text : string := "🔐Enter the password to clear cache:".
Definition cleared_text : string := "🧹Cache cleared successfully!
All rate limits and blocks reset.".
Definition wrong_text : string := "❌Wrong password!".

(** [start] (lines 77-118).  The subscript of line 81 cannot fail, since
    [record_request] has just stored the key: the [None] case is never taken
    ([start_unfold] below has no such case). *)
Definition start (cfg : Config) (clk : Clock) (message : Message) (w : World) : World :=
  let user_id := from_user_id message in
  let w := with_user_data (record_request (now_record_request clk) user_id (user_data w)) w in
  match user_data w !! user_id with
  | None => w
  | Some data =>
    let request_count := length (requests data) in
    let w :=
      if bool_decide (WARNING_THRESHOLD < request_count)
         && bool_decide (request_count ≤ MAX_REQUESTS_PER_MINUTE)
      then reply message (answer warning_text false []) w
      else w in
    if bool_decide (MAX_REQUESTS_PER_MINUTE < request_count) then
      let block_until := (now_start clk + timedelta_minutes BLOCK_DURATION_MINUTES)%Z in
      let w := with_user_data
                 (alter (λ d, {| requests := requests d; blocked_until := Some block_until |})
                        user_id (user_data w)) w in
      reply message (answer block_text false []) w
    else
      reply message (promo cfg) w
  end.

(** [cmd_clearcache] (lines 121-123) reads no setting. *)
Definition cmd_clearcache (message : Message) (w : World) : World :=
  let w := reply message (answer prompt_text false []) w in
  set_state message (Some waiting_for_password) w.

(** [process_clear_password] (lines 125-133): [==] on the optional text and
    the optional password, so that two [None] compare equal; [user_data = {}]
    rebinds the global to a new empty dict; [state.clear()] drops the state. *)
Definition process_clear_password (cfg : Config) (message : Message) (w : World) : World :=
  let w :=
    if bool_decide (text message = CLEAR_CACHE_PASSWORD cfg) then
      reply message (answer cleared_text false []) (with_user_data ∅ w)
    else
      reply message (answer wrong_text false []) w in
  set_state message None w.

(** ** Filters and dispatch (lines 44-56, 135-144)

    [CommandStart()] and [Command("clearcache")] are filters of the
    framework: which messages they accept is decided there, not in this
    program.  The dispatcher is therefore defined over any such pair of
    filters, and every general property below holds whatever the filters
    accept.  All that is used of a command filter is that it looks at the
    message alone and not at the FSM state, so that it accepts its command in
    every state. *)

Class Filters := {
  CommandStart : Message → bool;
  Command : string → Message → bool
}.

(** *** The framework's command filter, for concrete messages

    The text read is [message.text or message.caption].  It is split at its
    first run of white space as [str.split] does, the first word must start
    with the prefix [/], what follows up to the first [@] is the command
    name, compared as it is, and what follows the [@] is a mention.  A
    non-empty mention must equal the bot's own user name, both in lower case.
    Strings are UTF-8. *)

Definition in_range (lo hi : N) (a : Ascii.ascii) : bool :=
  ((lo <=? Ascii.N_of_ascii a) && (Ascii.N_of_ascii a <=? hi))%N.

Definition is_byte (n : N) (a : Ascii.ascii) : bool :=
  (Ascii.N_of_ascii a =? n)%N.

(** The number of bytes of the white-space character [s] starts with, and
    0 when it starts with none.  White space is what [str.isspace] accepts:
    U+0009-000D, U+001C-0020, U+0085, U+00A0, U+1680, U+2000-200A, U+2028,
    U+2029, U+202F, U+205F and U+3000. *)
Definition space_width (s : string) : nat :=
  match s with
  | String a s1 =>
    if in_range 9 13 a || in_range 28 32 a then 1
    else
      match s1 with
      | String b s2 =>
        if is_byte 194 a && (is_byte 133 b || is_byte 160 b) then 2
        else
          match s2 with
          | String c _ =>
            if is_byte 225 a && is_byte 154 b && is_byte 128 c
               || is_byte 226 a && is_byte 128 b
                  && (in_range 128 138 c || in_range 168 169 c || is_byte 175 c)
               || is_byte 226 a && is_byte 129 b && is_byte 159 c
               || is_byte 227 a && is_byte 128 b && is_byte 128 c
            then 3 else 0
          | EmptyString => 0
          end
      | EmptyString => 0
      end
  | EmptyString => 0
  end.

Fixpoint lstrip (s : string) : string :=
  match space_width s, s with
  | 1, String _ s1 => lstrip s1
  | 2, String _ (String _ s2) => lstrip s2
  | 3, String _ (String _ (String _ s3)) => lstrip s3
  | _, _ => s
  end.

Fixpoint first_word (s : string) : string :=
  match s with
  | String a s1 =>
    if bool_decide (space_width s = 0) then String a (first_word s1) else EmptyString
  | EmptyString => EmptyString
  end.

(** [s.partition("@")]: what comes before the first [@], and what comes
    after it when there is one. *)
Fixpoint partition_at (s : string) : string * option string :=
  match s with
  | String a s1 =>
    if Ascii.eqb a "@"%char then (EmptyString, Some s1)
    else (String a (partition_at s1).1, (partition_at s1).2)
  | EmptyString => (EmptyString, None)
  end.

(** [str.lower] where its result can be a user name, which is made of ASCII
    letters, digits and underscores: ASCII capitals, U+212A (Kelvin sign,
    lower case [k]) and U+0130 (lower case [i] and U+0307).  Every other
    character has a lower case outside ASCII and is left as it is. *)
Fixpoint lower (s : string) : string :=
  match s with
  | String a s1 =>
    if in_range 65 90 a then
      String (Ascii.ascii_of_N (Ascii.N_of_ascii a + 32)) (lower s1)
    else
      match s1 with
      | String b s2 =>
        if is_byte 196 a && is_byte 176 b then
          String "i"%char (String (Ascii.ascii_of_N 204) (String (Ascii.ascii_of_N 135)
                                                                 (lower s2)))
        else
          match s2 with
          | String c s3 =>
            if is_byte 226 a && is_byte 132 b && is_byte 170 c
            then String "k"%char (lower s3)
            else String a (lower s1)
          | EmptyString => String a (lower s1)
          end
      | EmptyString => String a (lower s1)
      end
  | EmptyString => EmptyString
  end.

(** [validate_mention]: [me] is the user name of the bot. *)
Definition mention_matches (me : option string) (mention : option string) : bool :=
  if truthy mention && truthy me then
    bool_decide (lower <$> mention = lower <$> me)
  else true.

Definition command_filter (me : option string) (name : string) (m : Message) : bool :=
  match (if truthy (text m) then text m else message_caption m) with
  | Some s =>
    match first_word (lstrip s) with
    | String prefix rest =>
      Ascii.eqb prefix "/"%char
      && mention_matches me (partition_at rest).2
      && String.eqb (partition_at rest).1 name
    | EmptyString => false
    end
  | None => false
  end.

Definition aiogram_filters (me : option string) : Filters :=
  {| CommandStart := command_filter me "start";
     Command := command_filter me |}.

(** The sample worlds and the evaluations on concrete messages below are
    those of a bot whose user name is [xk_bot]. *)
Global Instance sample_filters : Filters := aiogram_filters (Some "xk_bot").

Definition StateFilter (s : ClearCacheStates) (raw_state : option ClearCacheStates) : bool :=
  bool_decide (raw_state = Some s).

(** A registered handler: its filter, evaluated on the message and the
    sender's current FSM state, and its callback. *)
Record HandlerObject := {
  check : Message → option ClearCacheStates → bool;
  callback : Clock → Message → World → World
}.

(** [dp.message.register] in the order of [main] (lines 141-144). *)
Definition registered `{FL : Filters} (cfg : Config) : list HandlerObject :=
  [ {| check := λ m _, CommandStart m;
       callback := start cfg |};
    {| check := λ m _, Command "clearcache" m;
       callback := λ _, cmd_clearcache |};
    {| check := λ _ raw_state, StateFilter waiting_for_password raw_state;
       callback := λ _, process_clear_password cfg |} ].

(** [AntiSpamMiddleware.__call__]: events are messages here, the only kind
    the handlers are registered for. *)
Definition AntiSpamMiddleware (handler : Clock → Message → World → World)
    (clk : Clock) (event : Message) (w : World) : World :=
  let user_id := from_user_id event in
  let '((blocked, _), ud) := is_blocked (now_is_blocked clk) user_id (user_data w) in
  let w := with_user_data ud w in
  if blocked then w else handler clk event w.

(** The message observer: the first registered handler whose filter accepts
    the message is called, wrapped in the middleware; a message no filter
    accepts is left unhandled.  The update is handled to its end: what an
    update does that is dispatched while the handler of another one is
    suspended in an [await] is not described. *)
Definition feed_update `{FL : Filters} (cfg : Config) (clk : Clock) (m : Message) (w : World) : World :=
  match find (λ h, check h m (get_state m w)) (registered cfg) with
  | Some h => AntiSpamMiddleware (callback h) clk m w
  | None => w
  end.

(** Updates handled one after the other, each to its end before the next
    is dispatched. *)
Definition run `{FL : Filters} (cfg : Config) (events : list (Clock * Message)) (w : World)
    : World :=
  foldl (λ w e, feed_update cfg (fst e) (snd e) w) w events.

(** Worlds the bot can be in: the start world, and what a message makes of
    such a world. *)
Inductive reachable `{FL : Filters} (cfg : Config) : World → Prop :=
  | reachable_initial : reachable cfg initial_world
  | reachable_feed clk m w :
      reachable cfg w → reachable cfg (feed_update cfg clk m w).


Definition msg (uid : Z) (t : string) : Message :=
  {| chat_id := uid; from_user_id := uid; text := Some t; message_caption := None |}.

Definition at_time (t : datetime) : Clock :=
  {| now_is_blocked := t; now_record_request := t; now_start := t |}.

(** The world a handler starts from once the gate has looked the sender up. *)
Definition after_gate (clk : Clock) (m : Message) (w : World) : World :=
  with_user_data (is_blocked (now_is_blocked clk) (from_user_id m) (user_data w)).2 w.

(** The message is handled as the password attempt: behind the gate the
    password handler runs on it, and no other handler does. *)
Definition handled_as_password_attempt `{FL : Filters} (cfg : Config) (clk : Clock)
    (m : Message) (w : World) : Prop :=
  feed_update cfg clk m w = process_clear_password cfg m (after_gate clk m w).


(** ** Sample configurations and worlds *)

Definition sample_cfg : Config :=
  {| BOT_TOKEN := Some "token"; CHANNEL_LINK := Some "https://t.me/channel";
     PHOTO_URL := None; CLEAR_CACHE_PASSWORD := Some "secret" |}.

Definition cfg_without_password : Config :=
  {| BOT_TOKEN := Some "token"; CHANNEL_LINK := Some "https://t.me/channel";
     PHOTO_URL := None; CLEAR_CACHE_PASSWORD := None |}.

(** User 1, blocked until 180 s, with a password prompt pending. *)
Definition blocked_world : World :=
  {| user_data := {[ 1%Z := {| requests := [0; 1; 2; 3; 4; 5]%Z;
                               blocked_until := Some (timedelta_seconds 180) |} ]};
     fsm := {[ (1%Z, 1%Z) := waiting_for_password ]};
     sent := [] |}.

(** User 1 has issued the cache-clear command and owes the password. *)
Definition waiting_world : World :=
  feed_update sample_cfg (at_time 0) (msg 1 "/clearcache") initial_world.

(** A message that carries no text and no caption, such as a sticker. *)
Definition sticker (uid : Z) : Message :=
  {| chat_id := uid; from_user_id := uid; text := None; message_caption := None |}.

(** A photo with a caption, and the no-break space U+00A0 in UTF-8. *)
Definition photo (uid : Z) (c : string) : Message :=
  {| chat_id := uid; from_user_id := uid; text := None; message_caption := Some c |}.

Definition nbsp : string :=
  String (Ascii.ascii_of_N 194) (String (Ascii.ascii_of_N 160) EmptyString).

(** Six greetings of one user, a second apart: the last one blocks the user. *)
Definition six_greetings (uid : Z) : list (Clock * Message) :=
  (λ s, (at_time (timedelta_seconds s), msg uid "/start")) <$> [0; 1; 2; 3; 4; 5]%Z.

(** User 2 has been blocked; then user 1 issues the cache-clear command. *)
Definition prompted_world (cfg : Config) : World :=
  run cfg (six_greetings 2 ++ [(at_time (timedelta_seconds 6), msg 1 "/clearcache")])
      initial_world.

(** An environment with the two required settings and no password. *)
Definition environ_without_password : gmap string string :=
  {[ "BOT_TOKEN" := "token"; "CHANNEL_LINK" := "https://t.me/channel" ]}.

(** ** Notions for the properties of the whole dispatcher *)

(** The six replies the handlers can send. *)
Definition fixed_replies (cfg : Config) : list Reply :=
  [ answer warning_text false []; answer block_text false []; promo cfg;
    answer prompt_text false []; answer cleared_text false [];
    answer wrong_text false [] ].

(** An entry holds at most [MAX_REQUESTS_PER_MINUTE] timestamps while its
    user is free, and one more when the user is blocked. *)
Definition entry_bounded (d : UserData) : Prop :=
  match blocked_until d with
  | None => length (requests d) ≤ MAX_REQUESTS_PER_MINUTE
  | Some _ => length (requests d) = S MAX_REQUESTS_PER_MINUTE
  end.

Definition store_bounded (ud : gmap Z UserData) : Prop :=
  ∀ uid d, ud !! uid = Some d → entry_bounded d.

(** Events whose recording times are at least a minute apart, the first one
    at least a minute after [last]. *)
Fixpoint spaced (last : datetime) (events : list (Clock * Message)) : Prop :=
  match events with
  | [] => True
  | e :: events' =>
    (last + timedelta_minutes 1 ≤ now_record_request e.1)%Z
    ∧ spaced (now_record_request e.1) events'
  end.

(** * Properties *)

(** ** The rate tracker *)

Lemma with_user_data_id w : with_user_data (user_data w) w = w.
Proof. by destruct w. Qed.

Lemma blocked_until_of_Some uid ud b :
  blocked_until_of uid ud = Some b →
  ∃ d, ud !! uid = Some d ∧ blocked_until d = Some b.
Proof.
  unfold blocked_until_of. destruct (ud !! uid) as [d|] eqn:E; simpl; [eauto | done].
Qed.

Lemma is_blocked_free now uid ud :
  blocked_until_of uid ud = None →
  is_blocked now uid ud = ((false, None), ud).
Proof.
  unfold blocked_until_of, is_blocked. cbv zeta. intros H. rewrite H. simpl.
  rewrite !H. rewrite bool_decide_eq_false_2; [done | intros E; exact (E eq_refl)].
Qed.

Lemma is_blocked_active now uid ud b :
  blocked_until_of uid ud = Some b → (now ≤ b)%Z →
  is_blocked now uid ud = ((true, Some b), ud).
Proof.
  unfold blocked_until_of, is_blocked. cbv zeta. intros H Hle. rewrite H.
  rewrite (bool_decide_eq_false_2 (b < now)%Z) by lia. simpl.
  rewrite !H. by rewrite bool_decide_eq_true_2.
Qed.

Lemma is_blocked_expired now uid ud b :
  blocked_until_of uid ud = Some b → (b < now)%Z →
  is_blocked now uid ud = ((false, None), <[uid := fresh_entry]> ud).
Proof.
  intros Hb Hlt. destruct (blocked_until_of_Some _ _ _ Hb) as (d & Hd & Hbd).
  unfold is_blocked. cbv zeta. rewrite Hd. simpl. rewrite Hbd.
  by rewrite (bool_decide_eq_true_2 (b < now)%Z) by lia.
Qed.

Lemma requests_of_insert uid d ud : requests_of uid (<[uid := d]> ud) = requests d.
Proof. unfold requests_of. by rewrite lookup_insert_eq. Qed.

Lemma blocked_until_of_insert uid d ud :
  blocked_until_of uid (<[uid := d]> ud) = blocked_until d.
Proof. unfold blocked_until_of. by rewrite lookup_insert_eq. Qed.

Lemma record_request_unfold now uid ud :
  record_request now uid ud =
  <[uid := {| requests :=
                filter (λ t, (now - timedelta_minutes 1 < t)%Z) (requests_of uid ud) ++ [now];
              blocked_until := blocked_until_of uid ud |}]> ud.
Proof. reflexivity. Qed.


(** After the gate has let a message through, the sender is not blocked. *)
Lemma is_blocked_false_free now uid ud :
  (is_blocked now uid ud).1.1 = false →
  blocked_until_of uid (is_blocked now uid ud).2 = None.
Proof.
  destruct (blocked_until_of uid ud) as [b|] eqn:Hb.
  - destruct (decide (now ≤ b)%Z).
    + by rewrite (is_blocked_active _ _ _ _ Hb).
    + rewrite (is_blocked_expired _ _ _ _ Hb) by lia. intros _. simpl.
      by rewrite blocked_until_of_insert.
  - by rewrite (is_blocked_free _ _ _ Hb).
Qed.


(** ** Dispatch *)

Lemma feed_update_start `{FL : Filters} cfg clk m w :
  CommandStart m = true →
  feed_update cfg clk m w = AntiSpamMiddleware (start cfg) clk m w.
Proof. intros H. unfold feed_update, registered. cbn [find check callback]. by rewrite H. Qed.

Lemma feed_update_clearcache `{FL : Filters} cfg clk m w :
  CommandStart m = false → Command "clearcache" m = true →
  feed_update cfg clk m w = AntiSpamMiddleware (λ _, cmd_clearcache) clk m w.
Proof.
  intros H1 H2. unfold feed_update, registered. cbn [find check callback].
  by rewrite H1, H2.
Qed.

Lemma feed_update_password `{FL : Filters} cfg clk m w :
  CommandStart m = false → Command "clearcache" m = false →
  get_state m w = Some waiting_for_password →
  feed_update cfg clk m w = AntiSpamMiddleware (λ _, process_clear_password cfg) clk m w.
Proof.
  intros H1 H2 H3. unfold feed_update, registered. cbn [find check callback].
  by rewrite H1, H2, H3.
Qed.

Lemma feed_update_unhandled `{FL : Filters} cfg clk m w :
  CommandStart m = false → Command "clearcache" m = false →
  get_state m w = None →
  feed_update cfg clk m w = w.
Proof.
  intros H1 H2 H3. unfold feed_update, registered. cbn [find check callback].
  by rewrite H1, H2, H3.
Qed.

Lemma middleware_pass handler clk m w :
  blocked_until_of (from_user_id m) (user_data w) = None →
  AntiSpamMiddleware handler clk m w = handler clk m w.
Proof.
  intros H. unfold AntiSpamMiddleware. rewrite (is_blocked_free _ _ _ H).
  by rewrite with_user_data_id.
Qed.

Lemma middleware_drop handler clk m w b :
  blocked_until_of (from_user_id m) (user_data w) = Some b →
  (now_is_blocked clk ≤ b)%Z →
  AntiSpamMiddleware handler clk m w = w.
Proof.
  intros H Hle. unfold AntiSpamMiddleware. rewrite (is_blocked_active _ _ _ _ H Hle).
  by rewrite with_user_data_id.
Qed.

Lemma middleware_expired handler clk m w b :
  blocked_until_of (from_user_id m) (user_data w) = Some b →
  (b < now_is_blocked clk)%Z →
  AntiSpamMiddleware handler clk m w =
  handler clk m (with_user_data (<[from_user_id m := fresh_entry]> (user_data w)) w).
Proof.
  intros H Hlt. unfold AntiSpamMiddleware. by rewrite (is_blocked_expired _ _ _ _ H Hlt).
Qed.

(** Case analysis on the handler that [feed_update] picks for [m] in [w]:
    one goal per registered handler, and one for an unhandled message. *)
Ltac by_handler cfg clk m w :=
  let H1 := fresh "Hstart" in
  let H2 := fresh "Hclear" in
  let H3 := fresh "Hstate" in
  destruct (CommandStart m) eqn:H1;
    [ rewrite (feed_update_start cfg clk m w H1)
    | destruct (Command "clearcache" m) eqn:H2;
      [ rewrite (feed_update_clearcache cfg clk m w H1 H2)
      | destruct (get_state m w) as [[]|] eqn:H3;
        [ rewrite (feed_update_password cfg clk m w H1 H2 H3)
        | rewrite (feed_update_unhandled cfg clk m w H1 H2 H3) ] ] ].

(** The handlers, seen through the store. *)

Lemma start_unfold cfg clk m w :
  let uid := from_user_id m in
  let rs := filter (λ t, (now_record_request clk - timedelta_minutes 1 < t)%Z)
                   (requests_of uid (user_data w)) ++ [now_record_request clk] in
  let stored b := <[uid := {| requests := rs; blocked_until := b |}]> (user_data w) in
  let free := blocked_until_of uid (user_data w) in
  start cfg clk m w =
  if bool_decide (MAX_REQUESTS_PER_MINUTE < length rs) then
    reply m (answer block_text false [])
      (with_user_data
         (stored (Some (now_start clk + timedelta_minutes BLOCK_DURATION_MINUTES)%Z)) w)
  else if bool_decide (WARNING_THRESHOLD < length rs) then
    reply m (promo cfg) (reply m (answer warning_text false []) (with_user_data (stored free) w))
  else
    reply m (promo cfg) (with_user_data (stored free) w).
Proof.
  intros uid rs stored free. unfold start. cbv zeta.
  rewrite record_request_unfold. fold uid. fold rs. fold free.
  cbn [user_data with_user_data]. rewrite lookup_insert_eq. cbn [requests].
  destruct (bool_decide (MAX_REQUESTS_PER_MINUTE < length rs)) eqn:Hmax.
  - apply bool_decide_eq_true_1 in Hmax.
    rewrite (bool_decide_eq_false_2 (length rs ≤ MAX_REQUESTS_PER_MINUTE)) by lia.
    rewrite andb_false_r. unfold reply, with_user_data, stored. simpl. f_equal.
    rewrite alter_insert_eq. done.
  - apply bool_decide_eq_false_1 in Hmax.
    rewrite (bool_decide_eq_true_2 (length rs ≤ MAX_REQUESTS_PER_MINUTE)) by lia.
    rewrite andb_true_r. by destruct (bool_decide (WARNING_THRESHOLD < length rs)).
Qed.

(** ** An invariant of the reachable worlds *)








(** ** The anti-spam gate *)

Lemma feed_update_blocked `{FL : Filters} cfg clk m w b :
  blocked_until_of (from_user_id m) (user_data w) = Some b →
  (now_is_blocked clk ≤ b)%Z →
  feed_update cfg clk m w = w.
Proof.
  intros Hb Hle. by_handler cfg clk m w; [| | | done]; by eapply middleware_drop.
Qed.

(** A blocked user stays silent through any run of messages that all fall
    before the block expires. *)
Lemma blocked_user_run `{FL : Filters} cfg uid b events w :
  blocked_until_of uid (user_data w) = Some b →
  Forall (λ e, from_user_id e.2 = uid ∧ (now_is_blocked e.1 ≤ b)%Z) events →
  run cfg events w = w.
Proof.
  intros Hb. induction 1 as [|[clk m] events [Hu Hle] _ IH]; [done |].
  simpl in *. subst uid. unfold run in *. simpl.
  by rewrite (feed_update_blocked cfg clk m w b Hb Hle).
Qed.

(** C4: while a user's block has not expired (the clock read by the gate is
    at most [blocked_until]), a message of that user, whatever its text and
    whatever the session, changes nothing: no reply is sent, and the FSM
    storage and the rate store stay as they were. *)
Theorem C4_blocked_user_is_dropped `{FL : Filters} cfg clk m w b :
  blocked_until_of (from_user_id m) (user_data w) = Some b →
  (now_is_blocked clk ≤ b)%Z →
  feed_update cfg clk m w = w
  ∧ sent (feed_update cfg clk m w) = sent w
  ∧ get_state m (feed_update cfg clk m w) = get_state m w
  ∧ user_data (feed_update cfg clk m w) = user_data w.
Proof.
  intros Hb Hle. by rewrite (feed_update_blocked cfg clk m w b Hb Hle).
Qed.

Lemma C4_blocked_user_is_dropped_witness :
  feed_update sample_cfg (at_time (timedelta_seconds 100)) (msg 1 "secret") blocked_world
  = blocked_world.
Proof.
  apply (C4_blocked_user_is_dropped sample_cfg (at_time (timedelta_seconds 100))
           (msg 1 "secret") blocked_world (timedelta_seconds 180)).
  - reflexivity.
  - vm_compute. discriminate.
Defined.

(** ** Expiry of a block *)

(** C5: a block holds up to and including [blocked_until]; the first lookup
    strictly after it clears the block and empties the history in the store,
    leaving the other users as they were; a greeting that arrives then is
    recorded as the only request of its window and answered with the
    promotional payload only. *)
Theorem C5_block_expiry `{FL : Filters} uid ud b :
  blocked_until_of uid ud = Some b →
  is_blocked b uid ud = ((true, Some b), ud)
  ∧ (∀ now, (now ≤ b)%Z → is_blocked now uid ud = ((true, Some b), ud))
  ∧ (∀ now, (b < now)%Z →
       (is_blocked now uid ud).1 = (false, None)
       ∧ requests_of uid (is_blocked now uid ud).2 = []
       ∧ blocked_until_of uid (is_blocked now uid ud).2 = None
       ∧ ∀ other, other ≠ uid → (is_blocked now uid ud).2 !! other = ud !! other)
  ∧ (∀ cfg clk m w,
       user_data w = ud → from_user_id m = uid → CommandStart m = true →
       (b < now_is_blocked clk)%Z →
       let w' := feed_update cfg clk m w in
       requests_of uid (user_data w') = [now_record_request clk]
       ∧ blocked_until_of uid (user_data w') = None
       ∧ sent w' = sent w ++ [(chat_id m, promo cfg)]).
Proof.
  intros Hb. split_and!.
  - apply is_blocked_active; [done | lia].
  - intros now Hle. by apply is_blocked_active.
  - intros now Hlt. rewrite (is_blocked_expired _ _ _ _ Hb Hlt). simpl.
    rewrite requests_of_insert, blocked_until_of_insert. split_and!; try done.
    intros other Hne. by rewrite lookup_insert_ne.
  - intros cfg clk m w <- <- Hs Hlt w'. subst w'.
    rewrite feed_update_start by done.
    rewrite (middleware_expired _ _ _ _ _ Hb Hlt), start_unfold. cbv zeta.
    cbn [user_data with_user_data]. rewrite requests_of_insert, blocked_until_of_insert.
    cbn [requests blocked_until fresh_entry]. rewrite filter_nil. simpl.
    rewrite insert_insert_eq, requests_of_insert, blocked_until_of_insert. done.
Qed.

Lemma C5_block_expiry_witness :
  let w' := feed_update sample_cfg (at_time (timedelta_seconds 181)) (msg 1 "/start")
              blocked_world in
  requests_of 1 (user_data w') = [timedelta_seconds 181]
  ∧ blocked_until_of 1 (user_data w') = None
  ∧ sent w' = [(1%Z, promo sample_cfg)].
Proof.
  assert (blocked_until_of 1 (user_data blocked_world) = Some (timedelta_seconds 180)) as Hb
    by reflexivity.
  destruct (C5_block_expiry 1 (user_data blocked_world) (timedelta_seconds 180) Hb)
    as (_ & _ & _ & H).
  apply (H sample_cfg (at_time (timedelta_seconds 181)) (msg 1 "/start") blocked_world);
    [reflexivity | reflexivity | reflexivity | vm_compute; reflexivity].
Defined.

(** ** The sliding window *)

(** C6: recording a request keeps of the stored history exactly the
    timestamps later than one minute before [now], in their order, and
    appends [now]; with requests at [t] and [t + 30 s] on record, recording
    at [t + 70 s] leaves the two requests [t + 30 s] and [t + 70 s]. *)
Theorem C6_sliding_window uid ud :
  (∀ now,
     requests_of uid (record_request now uid ud) =
       filter (λ x, (now - timedelta_seconds 60 < x)%Z) (requests_of uid ud) ++ [now]
     ∧ Forall (λ x, (now - timedelta_seconds 60 < x)%Z)
              (requests_of uid (record_request now uid ud)))
  ∧ (∀ t,
       requests_of uid ud = [t; (t + timedelta_seconds 30)%Z] →
       requests_of uid (record_request (t + timedelta_seconds 70) uid ud) =
         [(t + timedelta_seconds 30)%Z; (t + timedelta_seconds 70)%Z]
       ∧ length (requests_of uid (record_request (t + timedelta_seconds 70) uid ud)) = 2).
Proof.
  assert (∀ now, requests_of uid (record_request now uid ud) =
            filter (λ x, (now - timedelta_seconds 60 < x)%Z) (requests_of uid ud) ++ [now])
    as Hrec.
  { intros now. by rewrite record_request_unfold, requests_of_insert. }
  split.
  - intros now. split; [apply Hrec |]. rewrite Hrec. apply Forall_app. split.
    + apply list.Forall_forall. intros x Hx. by apply list_elem_of_filter in Hx as [? _].
    + apply Forall_singleton. unfold timedelta_seconds. lia.
  - intros t Ht. rewrite Hrec, Ht. unfold timedelta_seconds.
    rewrite filter_cons_False by lia. rewrite filter_cons_True by lia.
    by rewrite filter_nil.
Qed.

Lemma C6_sliding_window_witness :
  let ud : gmap Z UserData :=
    {[ 7%Z := {| requests := [timedelta_seconds 5; timedelta_seconds 35];
                 blocked_until := None |} ]} in
  requests_of 7 (record_request (timedelta_seconds 75) 7 ud) =
    [timedelta_seconds 35; timedelta_seconds 75]
  ∧ length (requests_of 7 (record_request (timedelta_seconds 75) 7 ud)) = 2.
Proof.
  intros ud.
  apply (proj2 (C6_sliding_window 7 ud) (timedelta_seconds 5)). reflexivity.
Defined.

(** ** Thresholds of the greeting handler *)




(** ** The session state machine and the dispatch order *)

Lemma middleware_not_blocked handler clk m w :
  (is_blocked (now_is_blocked clk) (from_user_id m) (user_data w)).1.1 = false →
  AntiSpamMiddleware handler clk m w = handler clk m (after_gate clk m w).
Proof.
  unfold AntiSpamMiddleware, after_gate.
  destruct (is_blocked _ _ _) as [[blocked until] ud]. simpl. by intros ->.
Qed.

Lemma start_fsm cfg clk m w : fsm (start cfg clk m w) = fsm w.
Proof. rewrite start_unfold. cbv zeta. by repeat case_bool_decide. Qed.

Lemma process_clear_password_sent cfg m w :
  sent (process_clear_password cfg m w) =
  sent w ++ [(chat_id m,
              answer (if bool_decide (text m = CLEAR_CACHE_PASSWORD cfg)
                      then cleared_text else wrong_text) false [])].
Proof. unfold process_clear_password. by case_bool_decide. Qed.

Lemma process_clear_password_state cfg m w :
  get_state m (process_clear_password cfg m w) = None.
Proof.
  unfold process_clear_password, get_state, set_state. cbn [fsm]. apply lookup_delete_eq.
Qed.

(** C2, as the code has it, whatever the two command filters accept: for a
    user who owes the password and is not blocked, a message that neither
    command filter accepts is the single password attempt, answered by the
    password handler alone, and the session returns to Idle.  A message that
    the greeting filter accepts is answered by the greeting handler, and one
    that only the cache-clear filter accepts by the cache-clear handler (a
    new prompt); both leave the session waiting for the password. *)
Theorem C2_password_turn `{FL : Filters} cfg clk m w :
  get_state m w = Some waiting_for_password →
  (is_blocked (now_is_blocked clk) (from_user_id m) (user_data w)).1.1 = false →
  let w' := feed_update cfg clk m w in
  (CommandStart m = false → Command "clearcache" m = false →
     handled_as_password_attempt cfg clk m w
     ∧ get_state m w' = None
     ∧ sent w' = sent w ++ [(chat_id m,
                             answer (if bool_decide (text m = CLEAR_CACHE_PASSWORD cfg)
                                     then cleared_text else wrong_text) false [])])
  ∧ (CommandStart m = true →
       w' = start cfg clk m (after_gate clk m w)
       ∧ get_state m w' = Some waiting_for_password)
  ∧ (CommandStart m = false → Command "clearcache" m = true →
       w' = cmd_clearcache m (after_gate clk m w)
       ∧ get_state m w' = Some waiting_for_password
       ∧ sent w' = sent w ++ [(chat_id m, answer prompt_text false [])]).
Proof.
  intros Hst Hgate w'. subst w'. split_and!.
  - intros H1 H2.
    assert (handled_as_password_attempt cfg clk m w) as Hp.
    { unfold handled_as_password_attempt.
      by rewrite feed_update_password, middleware_not_blocked. }
    split; [exact Hp |]. rewrite Hp.
    by rewrite process_clear_password_state, process_clear_password_sent.
  - intros H1. rewrite feed_update_start, middleware_not_blocked by done.
    split; [done |]. unfold get_state. by rewrite start_fsm.
  - intros H1 H2. rewrite feed_update_clearcache, middleware_not_blocked by done.
    split_and!; [done | | done].
    unfold cmd_clearcache, get_state, set_state. cbn [fsm]. apply lookup_insert_eq.
Qed.

Lemma C2_password_turn_witness :
  let m := msg 1 "guess" in
  let w' := feed_update sample_cfg (at_time (timedelta_seconds 1)) m waiting_world in
  get_state m w' = None
  ∧ sent w' = sent waiting_world ++ [(1%Z, answer wrong_text false [])].
Proof.
  intros m w'.
  destruct (C2_password_turn sample_cfg (at_time (timedelta_seconds 1)) m waiting_world)
    as (H & _ & _); [reflexivity | reflexivity |].
  destruct H as (_ & Hs & Hr); [reflexivity | reflexivity |].
  split; [exact Hs | exact Hr].
Defined.

(** C2, as stated, fails: user 1 owes the password and is not blocked, and
    sends the greeting command.  The message is not handled as a password
    attempt: the promotional payload is the only reply and the session still
    waits for the password.  The cache-clear command likewise only draws a
    second prompt. *)
Lemma C2_counterexample :
  let clk := at_time (timedelta_seconds 1) in
  let m := msg 1 "/start" in
  let w' := feed_update sample_cfg clk m waiting_world in
  let w'' := feed_update sample_cfg clk (msg 1 "/clearcache") waiting_world in
  get_state m waiting_world = Some waiting_for_password
  ∧ (is_blocked (now_is_blocked clk) 1 (user_data waiting_world)).1.1 = false
  ∧ ¬ handled_as_password_attempt sample_cfg clk m waiting_world
  ∧ get_state m w' = Some waiting_for_password
  ∧ sent w' = sent waiting_world ++ [(1%Z, promo sample_cfg)]
  ∧ ¬ handled_as_password_attempt sample_cfg clk (msg 1 "/clearcache") waiting_world
  ∧ get_state m w'' = Some waiting_for_password
  ∧ sent w'' = sent waiting_world ++ [(1%Z, answer prompt_text false [])].
Proof.
  intros clk m w' w''. split_and!; try reflexivity.
  - intros H. apply (f_equal (λ w, get_state m w)) in H.
    rewrite process_clear_password_state in H. vm_compute in H. discriminate.
  - intros H. apply (f_equal (λ w, get_state m w)) in H.
    change (get_state m) with (get_state (msg 1 "/clearcache")) in H at 2.
    rewrite process_clear_password_state in H. vm_compute in H. discriminate.
Qed.

(** ** The password check *)

(** C7: when the text of the message equals the configured password, the
    password handler replaces the store by the empty one, so that afterwards
    every user has an empty history and no block; it replies with the success
    message and returns the session to Idle.  A user who owes the password,
    is let through by the gate and sends the password as a text that is no
    command gets exactly this. *)
Theorem C7_correct_password_clears_all `{FL : Filters} cfg m w :
  text m = CLEAR_CACHE_PASSWORD cfg →
  let w' := process_clear_password cfg m w in
  user_data w' = ∅
  ∧ (∀ uid now,
       requests_of uid (user_data w') = []
       ∧ blocked_until_of uid (user_data w') = None
       ∧ is_blocked now uid (user_data w') = ((false, None), user_data w'))
  ∧ sent w' = sent w ++ [(chat_id m, answer cleared_text false [])]
  ∧ get_state m w' = None
  ∧ (∀ clk,
       get_state m w = Some waiting_for_password →
       (is_blocked (now_is_blocked clk) (from_user_id m) (user_data w)).1.1 = false →
       CommandStart m = false → Command "clearcache" m = false →
       user_data (feed_update cfg clk m w) = ∅
       ∧ sent (feed_update cfg clk m w) = sent w ++ [(chat_id m, answer cleared_text false [])]
       ∧ get_state m (feed_update cfg clk m w) = None).
Proof.
  intros Heq w'. subst w'.
  assert (∀ w0, user_data (process_clear_password cfg m w0) = ∅) as Hclear.
  { intros w0. unfold process_clear_password. by rewrite bool_decide_eq_true_2. }
  assert (∀ w0, sent (process_clear_password cfg m w0) =
                sent w0 ++ [(chat_id m, answer cleared_text false [])]) as Hsent.
  { intros w0. rewrite process_clear_password_sent. by rewrite bool_decide_eq_true_2. }
  split_and!; [apply Hclear | | apply Hsent | apply process_clear_password_state |].
  - intros uid now. rewrite Hclear. by split_and!.
  - intros clk Hst Hgate H1 H2.
    rewrite feed_update_password, middleware_not_blocked by done.
    rewrite Hclear, Hsent, process_clear_password_state. done.
Qed.

Lemma C7_correct_password_clears_all_witness :
  let w' := feed_update sample_cfg (at_time (timedelta_seconds 7)) (msg 1 "secret")
              (prompted_world sample_cfg) in
  blocked_until_of 2 (user_data (prompted_world sample_cfg)) = Some (timedelta_seconds 185)
  ∧ user_data w' = ∅
  ∧ get_state (msg 1 "secret") w' = None.
Proof.
  intros w'. split; [reflexivity |].
  destruct (C7_correct_password_clears_all sample_cfg (msg 1 "secret")
              (prompted_world sample_cfg)) as (_ & _ & _ & _ & H); [reflexivity |].
  destruct (H (at_time (timedelta_seconds 7))) as (Hu & _ & Hs);
    [reflexivity | reflexivity | reflexivity | reflexivity |].
  split; [exact Hu | exact Hs].
Defined.

(** C8: when the text of the message differs from the configured password,
    the password handler replies with the failure message, returns the
    session to Idle and leaves the whole store as it is.  For a user who owes
    the password and is let through by the gate, the store after the message
    is the store the gate has left, which is the store before the message
    when that user has no block on record. *)
Theorem C8_wrong_password_keeps_store `{FL : Filters} cfg m w :
  text m ≠ CLEAR_CACHE_PASSWORD cfg →
  let w' := process_clear_password cfg m w in
  sent w' = sent w ++ [(chat_id m, answer wrong_text false [])]
  ∧ get_state m w' = None
  ∧ user_data w' = user_data w
  ∧ (∀ clk,
       get_state m w = Some waiting_for_password →
       (is_blocked (now_is_blocked clk) (from_user_id m) (user_data w)).1.1 = false →
       CommandStart m = false → Command "clearcache" m = false →
       sent (feed_update cfg clk m w) = sent w ++ [(chat_id m, answer wrong_text false [])]
       ∧ get_state m (feed_update cfg clk m w) = None
       ∧ user_data (feed_update cfg clk m w) = user_data (after_gate clk m w)
       ∧ (blocked_until_of (from_user_id m) (user_data w) = None →
            user_data (feed_update cfg clk m w) = user_data w)).
Proof.
  intros Hne w'. subst w'.
  assert (∀ w0, user_data (process_clear_password cfg m w0) = user_data w0) as Hkeep.
  { intros w0. unfold process_clear_password. by rewrite bool_decide_eq_false_2. }
  assert (∀ w0, sent (process_clear_password cfg m w0) =
                sent w0 ++ [(chat_id m, answer wrong_text false [])]) as Hsent.
  { intros w0. rewrite process_clear_password_sent. by rewrite bool_decide_eq_false_2. }
  split_and!; [apply Hsent | apply process_clear_password_state | apply Hkeep |].
  intros clk Hst Hgate H1 H2.
  rewrite feed_update_password, middleware_not_blocked by done.
  rewrite Hkeep, Hsent, process_clear_password_state. split_and!; try done.
  intros Hfree. unfold after_gate. by rewrite (is_blocked_free _ _ _ Hfree).
Qed.

Lemma C8_wrong_password_keeps_store_witness :
  let w := prompted_world sample_cfg in
  let w' := feed_update sample_cfg (at_time (timedelta_seconds 7)) (msg 1 "wrong") w in
  sent w' = sent w ++ [(1%Z, answer wrong_text false [])]
  ∧ get_state (msg 1 "wrong") w' = None
  ∧ user_data w' = user_data w.
Proof.
  intros w w'.
  destruct (C8_wrong_password_keeps_store sample_cfg (msg 1 "wrong") w)
    as (_ & _ & _ & H); [discriminate |].
  destruct (H (at_time (timedelta_seconds 7))) as (Hs & Hst & _ & Hu);
    [reflexivity | reflexivity | reflexivity | reflexivity |].
  split_and!; [exact Hs | exact Hst | apply Hu; reflexivity].
Defined.

(** C9: without a configured password the password handler answers every
    text message with the failure message and leaves the store alone, while
    the cache-clear handler still sends the prompt and makes the session wait
    for a password. *)
Theorem C9_no_password_text_never_clears `{FL : Filters} cfg :
  CLEAR_CACHE_PASSWORD cfg = None →
  (∀ m s w, text m = Some s →
     sent (process_clear_password cfg m w) = sent w ++ [(chat_id m, answer wrong_text false [])]
     ∧ user_data (process_clear_password cfg m w) = user_data w)
  ∧ (∀ m w,
       sent (cmd_clearcache m w) = sent w ++ [(chat_id m, answer prompt_text false [])]
       ∧ get_state m (cmd_clearcache m w) = Some waiting_for_password)
  ∧ (∀ clk m w,
       CommandStart m = false → Command "clearcache" m = true →
       blocked_until_of (from_user_id m) (user_data w) = None →
       feed_update cfg clk m w = cmd_clearcache m w).
Proof.
  intros Hnone. split_and!.
  - intros m s w Ht. rewrite process_clear_password_sent.
    unfold process_clear_password.
    rewrite !bool_decide_eq_false_2 by (rewrite Ht, Hnone; discriminate). done.
  - intros m w. split; [done |].
    unfold cmd_clearcache, get_state, set_state. cbn [fsm]. apply lookup_insert_eq.
  - intros clk m w H1 H2 Hfree.
    by rewrite feed_update_clearcache, middleware_pass.
Qed.

Lemma C9_no_password_text_never_clears_witness :
  let w := prompted_world cfg_without_password in
  sent (process_clear_password cfg_without_password (msg 1 "secret") w)
    = sent w ++ [(1%Z, answer wrong_text false [])]
  ∧ user_data (process_clear_password cfg_without_password (msg 1 "secret") w) = user_data w.
Proof.
  intros w.
  destruct (C9_no_password_text_never_clears cfg_without_password) as (H & _ & _);
    [reflexivity |].
  apply (H (msg 1 "secret") "secret" w). reflexivity.
Defined.

(** ** The cache-clear command without a password *)

(** C1 fails on the code.  The module is loaded without a password and
    announces the cache-clear command as disabled; user 2 gets blocked; user 1
    then sends the cache-clear command and is asked for the password, the
    session waiting for it; a following message without text passes the
    password check, empties the store and so lifts the block of user 2. *)
Theorem C1_clearcache_without_password :
  let cfg := cfg_without_password in
  let w0 := run cfg (six_greetings 2) initial_world in
  let w1 := feed_update cfg (at_time (timedelta_seconds 6)) (msg 1 "/clearcache") w0 in
  let w2 := feed_update cfg (at_time (timedelta_seconds 7)) (sticker 1) w1 in
  load_module environ_without_password = Loaded cfg [password_warning]
  ∧ sent w1 = sent w0 ++ [(1%Z, answer prompt_text false [])]
  ∧ get_state (msg 1 "/clearcache") w0 = None
  ∧ get_state (msg 1 "/clearcache") w1 = Some waiting_for_password
  ∧ blocked_until_of 2 (user_data w1) = Some (timedelta_seconds 185)
  ∧ user_data w2 = ∅
  ∧ sent w2 = sent w1 ++ [(1%Z, answer cleared_text false [])].
Proof. by split_and!; vm_compute. Qed.

(** ** Startup *)

(** C10: loading the module raises [ValueError], with a message that names
    the setting, when [BOT_TOKEN] is missing or empty, and when
    [CHANNEL_LINK] is; with both set the module loads, whether or not a
    password is set, and a missing password only prints a warning. *)
Theorem C10_startup environ :
  (environ !! "BOT_TOKEN" = None →
     load_module environ = Raised_ValueError "❌ BOT_TOKEN not found!")
  ∧ (truthy (environ !! "BOT_TOKEN") = false →
       load_module environ = Raised_ValueError "❌ BOT_TOKEN not found!")
  ∧ (truthy (environ !! "BOT_TOKEN") = true → environ !! "CHANNEL_LINK" = None →
       load_module environ = Raised_ValueError "❌ CHANNEL_LINK not found")
  ∧ (truthy (environ !! "BOT_TOKEN") = true → truthy (environ !! "CHANNEL_LINK") = false →
       load_module environ = Raised_ValueError "❌ CHANNEL_LINK not found")
  ∧ (environ !! "BOT_TOKEN" = None ∨ environ !! "CHANNEL_LINK" = None →
       ∃ msg, load_module environ = Raised_ValueError msg)
  ∧ (truthy (environ !! "BOT_TOKEN") = true → truthy (environ !! "CHANNEL_LINK") = true →
       ∃ stdout, load_module environ = Loaded (read_settings environ) stdout)
  ∧ (truthy (environ !! "BOT_TOKEN") = true → truthy (environ !! "CHANNEL_LINK") = true →
       environ !! "CLEAR_CACHE_PASSWORD" = None →
       load_module environ = Loaded (read_settings environ) [password_warning]).
Proof.
  unfold load_module, read_settings, os_getenv. cbn [BOT_TOKEN CHANNEL_LINK CLEAR_CACHE_PASSWORD].
  split_and!.
  - by intros ->.
  - by intros ->.
  - by intros -> ->.
  - by intros -> ->.
  - intros [-> | ->]; [by eauto |]. simpl. destruct (truthy _); simpl; eauto.
  - intros -> ->. simpl. destruct (truthy _); eauto.
  - by intros -> -> ->.
Qed.

Lemma C10_startup_witness :
  load_module environ_without_password =
  Loaded (read_settings environ_without_password) [password_warning].
Proof.
  destruct (C10_startup environ_without_password) as (_ & _ & _ & _ & _ & _ & H).
  apply H; reflexivity.
Defined.

(** * Further properties of the dispatcher and the rate tracker *)

(** ** What one message can do *)

Lemma is_blocked_other now uid other ud :
  other ≠ uid → (is_blocked now uid ud).2 !! other = ud !! other.
Proof.
  intros Hne. destruct (blocked_until_of uid ud) as [b|] eqn:Hb.
  - destruct (decide (now ≤ b)%Z).
    + by rewrite (is_blocked_active _ _ _ _ Hb).
    + rewrite (is_blocked_expired _ _ _ _ Hb) by lia. simpl.
      by rewrite lookup_insert_ne.
  - by rewrite (is_blocked_free _ _ _ Hb).
Qed.

Lemma is_blocked_keeps_keys now uid u ud :
  is_Some (ud !! u) → is_Some ((is_blocked now uid ud).2 !! u).
Proof.
  intros Hu. destruct (decide (u = uid)) as [->|Hne].
  - destruct (blocked_until_of uid ud) as [b|] eqn:Hb.
    + destruct (decide (now ≤ b)%Z).
      * by rewrite (is_blocked_active _ _ _ _ Hb).
      * rewrite (is_blocked_expired _ _ _ _ Hb) by lia. simpl.
        rewrite lookup_insert_eq. eauto.
    + by rewrite (is_blocked_free _ _ _ Hb).
  - by rewrite is_blocked_other.
Qed.

Lemma is_blocked_true_same now uid ud :
  (is_blocked now uid ud).1.1 = true → (is_blocked now uid ud).2 = ud.
Proof.
  destruct (blocked_until_of uid ud) as [b|] eqn:Hb.
  - destruct (decide (now ≤ b)%Z).
    + by rewrite (is_blocked_active _ _ _ _ Hb).
    + by rewrite (is_blocked_expired _ _ _ _ Hb) by lia.
  - by rewrite (is_blocked_free _ _ _ Hb).
Qed.

Lemma middleware_blocked handler clk m w :
  (is_blocked (now_is_blocked clk) (from_user_id m) (user_data w)).1.1 = true →
  AntiSpamMiddleware handler clk m w = w.
Proof.
  intros Hb. pose proof (is_blocked_true_same _ _ _ Hb) as Hs.
  unfold AntiSpamMiddleware.
  destruct (is_blocked _ _ _) as [[blocked until] ud]. simpl in *. subst.
  apply with_user_data_id.
Qed.

(** The four ways a message can go: dropped or unhandled, or given, behind
    the gate, to one of the three handlers. *)
Lemma feed_update_cases `{FL : Filters} cfg clk m w :
  let passed := (is_blocked (now_is_blocked clk) (from_user_id m) (user_data w)).1.1 = false in
  feed_update cfg clk m w = w
  ∨ (passed ∧ CommandStart m = true
     ∧ feed_update cfg clk m w = start cfg clk m (after_gate clk m w))
  ∨ (passed ∧ CommandStart m = false ∧ Command "clearcache" m = true
     ∧ feed_update cfg clk m w = cmd_clearcache m (after_gate clk m w))
  ∨ (passed ∧ CommandStart m = false ∧ Command "clearcache" m = false
     ∧ get_state m w = Some waiting_for_password
     ∧ feed_update cfg clk m w = process_clear_password cfg m (after_gate clk m w)).
Proof.
  intros passed. subst passed.
  destruct ((is_blocked (now_is_blocked clk) (from_user_id m) (user_data w)).1.1) eqn:Hb.
  - left. by_handler cfg clk m w; [| | | done]; by apply middleware_blocked.
  - by_handler cfg clk m w; [| | | by left]; right;
      rewrite (middleware_not_blocked _ _ _ _ Hb); auto 10.
Qed.

Lemma start_user_data cfg clk m w :
  ∃ d, user_data (start cfg clk m w) = <[from_user_id m := d]> (user_data w).
Proof. rewrite start_unfold. cbv zeta. repeat case_bool_decide; by eexists. Qed.

Lemma after_gate_other clk m w other :
  other ≠ from_user_id m → user_data (after_gate clk m w) !! other = user_data w !! other.
Proof. intros. by apply is_blocked_other. Qed.

Lemma after_gate_keeps_keys clk m w u :
  is_Some (user_data w !! u) → is_Some (user_data (after_gate clk m w) !! u).
Proof. apply is_blocked_keeps_keys. Qed.

(** X1: a message leaves the entries of all users other than its sender as
    they are and removes no entry, unless it is the password attempt of a
    user who owes the password and its text equals the configured password,
    in which case the store is left empty. *)
Theorem X1_store_frame `{FL : Filters} cfg clk m w :
  let w' := feed_update cfg clk m w in
  ((∀ other, other ≠ from_user_id m → user_data w' !! other = user_data w !! other)
   ∧ (∀ u, is_Some (user_data w !! u) → is_Some (user_data w' !! u)))
  ∨ (user_data w' = ∅
     ∧ get_state m w = Some waiting_for_password
     ∧ text m = CLEAR_CACHE_PASSWORD cfg
     ∧ CommandStart m = false ∧ Command "clearcache" m = false).
Proof.
  intros w'. subst w'.
  destruct (feed_update_cases cfg clk m w)
    as [-> | [(_ & _ & ->) | [(_ & _ & _ & ->) | (_ & H1 & H2 & Hst & ->)]]].
  - by left.
  - left. destruct (start_user_data cfg clk m (after_gate clk m w)) as [d ->]. split.
    + intros other Hne. rewrite lookup_insert_ne by done. by apply after_gate_other.
    + intros u Hu. destruct (decide (u = from_user_id m)) as [->|Hne].
      * rewrite lookup_insert_eq. eauto.
      * rewrite lookup_insert_ne by done. by apply after_gate_keeps_keys.
  - left. split; [apply after_gate_other | apply after_gate_keeps_keys].
  - unfold process_clear_password. case_bool_decide; [by right |].
    left. split; [apply after_gate_other | apply after_gate_keeps_keys].
Qed.

Lemma X1_store_frame_witness :
  let w := prompted_world sample_cfg in
  let w' := feed_update sample_cfg (at_time (timedelta_seconds 7)) (msg 1 "/start") w in
  user_data w' !! 2%Z = user_data w !! 2%Z.
Proof.
  intros w w'.
  destruct (X1_store_frame sample_cfg (at_time (timedelta_seconds 7)) (msg 1 "/start") w)
    as [[H _] | (_ & _ & H & _)].
  - apply H. discriminate.
  - discriminate H.
Defined.

(** X2: a message changes the FSM storage at most at the key of its own
    sender and chat; the greeting command never changes it. *)
Theorem X2_session_frame `{FL : Filters} cfg clk m w :
  (∀ k, k ≠ fsm_key m → fsm (feed_update cfg clk m w) !! k = fsm w !! k)
  ∧ (CommandStart m = true → fsm (feed_update cfg clk m w) = fsm w).
Proof.
  destruct (feed_update_cases cfg clk m w)
    as [-> | [(_ & H1 & ->) | [(_ & H1 & _ & ->) | (_ & H1 & _ & _ & ->)]]].
  - done.
  - by rewrite start_fsm.
  - split; [| congruence]. intros k Hk.
    unfold cmd_clearcache, set_state. cbn [fsm]. by rewrite lookup_insert_ne.
  - split; [| congruence]. intros k Hk.
    unfold process_clear_password, set_state. cbn [fsm]. rewrite lookup_delete_ne by done.
    by case_bool_decide.
Qed.

Lemma X2_session_frame_witness :
  fsm (feed_update sample_cfg (at_time (timedelta_seconds 1)) (msg 1 "/start") waiting_world)
  = fsm waiting_world.
Proof.
  apply (proj2 (X2_session_frame sample_cfg (at_time (timedelta_seconds 1))
                  (msg 1 "/start") waiting_world)).
  reflexivity.
Defined.

(** X3: a message adds at most two replies to those already sent, changes
    none of the earlier ones, and each new reply goes to the chat of the
    message and is one of the six fixed replies. *)
Theorem X3_replies `{FL : Filters} cfg clk m w :
  ∃ rs, sent (feed_update cfg clk m w) = sent w ++ rs
        ∧ length rs ≤ 2
        ∧ Forall (λ r, r.1 = chat_id m ∧ r.2 ∈ fixed_replies cfg) rs.
Proof.
  destruct (feed_update_cases cfg clk m w)
    as [-> | [(_ & _ & ->) | [(_ & _ & _ & ->) | (_ & _ & _ & _ & ->)]]].
  - exists []. rewrite app_nil_r. split_and!; [done | simpl; lia | constructor].
  - rewrite start_unfold. cbv zeta. unfold fixed_replies.
    repeat case_bool_decide; cbn [sent reply with_user_data after_gate];
      rewrite <- ?app_assoc; eexists; (split; [reflexivity |]);
      (split; [simpl; lia |]); repeat constructor; set_solver.
  - eexists. split; [reflexivity |]. split; [simpl; lia |].
    unfold fixed_replies. repeat constructor; set_solver.
  - rewrite process_clear_password_sent. eexists. split; [reflexivity |].
    split; [simpl; lia |]. unfold fixed_replies.
    case_bool_decide; repeat constructor; set_solver.
Qed.

Lemma X3_replies_witness :
  ∃ rs, sent (feed_update sample_cfg (at_time 0) (msg 1 "/start") initial_world) = [] ++ rs
        ∧ length rs ≤ 2
        ∧ Forall (λ r, r.1 = 1%Z ∧ r.2 ∈ fixed_replies sample_cfg) rs.
Proof. exact (X3_replies sample_cfg (at_time 0) (msg 1 "/start") initial_world). Defined.

(** ** The size of a history *)

Lemma store_bounded_insert uid d ud :
  store_bounded ud → entry_bounded d → store_bounded (<[uid := d]> ud).
Proof.
  intros Hs Hd u d' Hu. destruct (decide (uid = u)) as [->|Hne].
  - rewrite lookup_insert_eq in Hu. by simplify_eq.
  - rewrite lookup_insert_ne in Hu by done. eauto.
Qed.

Lemma is_blocked_bounded now uid ud :
  store_bounded ud → store_bounded (is_blocked now uid ud).2.
Proof.
  intros Hs. destruct (blocked_until_of uid ud) as [b|] eqn:Hb.
  - destruct (decide (now ≤ b)%Z).
    + by rewrite (is_blocked_active _ _ _ _ Hb).
    + rewrite (is_blocked_expired _ _ _ _ Hb) by lia. simpl.
      apply store_bounded_insert; [done |]. unfold entry_bounded. simpl. lia.
  - by rewrite (is_blocked_free _ _ _ Hb).
Qed.

Lemma free_requests_bounded uid ud :
  store_bounded ud → blocked_until_of uid ud = None →
  length (requests_of uid ud) ≤ MAX_REQUESTS_PER_MINUTE.
Proof.
  unfold blocked_until_of, requests_of. intros Hs Hf.
  destruct (ud !! uid) as [d|] eqn:Hd; simpl in *; [| lia].
  specialize (Hs _ _ Hd). unfold entry_bounded in Hs. by rewrite Hf in Hs.
Qed.

Lemma start_bounded cfg clk m w :
  store_bounded (user_data w) →
  blocked_until_of (from_user_id m) (user_data w) = None →
  store_bounded (user_data (start cfg clk m w)).
Proof.
  intros Hs Hf. pose proof (free_requests_bounded _ _ Hs Hf) as Hlen.
  rewrite start_unfold. cbv zeta. rewrite Hf.
  set (kept := filter _ (requests_of _ _)).
  assert (length kept ≤ length (requests_of (from_user_id m) (user_data w))) as Hk
    by apply length_filter.
  unfold MAX_REQUESTS_PER_MINUTE, WARNING_THRESHOLD in *.
  repeat case_bool_decide; cbn [user_data reply with_user_data];
    (apply store_bounded_insert; [done |]); unfold entry_bounded;
    cbn [requests blocked_until] in *; rewrite length_app in *; simpl in *;
    unfold MAX_REQUESTS_PER_MINUTE; lia.
Qed.

Lemma feed_update_bounded `{FL : Filters} cfg clk m w :
  store_bounded (user_data w) → store_bounded (user_data (feed_update cfg clk m w)).
Proof.
  intros Hs.
  pose proof (is_blocked_bounded (now_is_blocked clk) (from_user_id m) _ Hs) as Hg.
  destruct (feed_update_cases cfg clk m w)
    as [-> | [(Hp & _ & ->) | [(_ & _ & _ & ->) | (_ & _ & _ & _ & ->)]]]; try done.
  - apply start_bounded; [done |]. by apply is_blocked_false_free.
  - unfold process_clear_password. case_bool_decide; [| done].
    intros u d Hu. simpl in Hu. by rewrite lookup_empty in Hu.
Qed.

Lemma reachable_store_bounded `{FL : Filters} cfg w :
  reachable cfg w → store_bounded (user_data w).
Proof.
  induction 1 as [|clk m w _ IH].
  - intros u d Hu. cbn [user_data initial_world] in Hu. by rewrite lookup_empty in Hu.
  - by apply feed_update_bounded.
Qed.

(** X4: in every world the bot can reach, no user's history holds more than
    six timestamps, and a user has a block on record exactly when the history
    holds six. *)
Theorem X4_history_bounded `{FL : Filters} cfg w uid :
  reachable cfg w →
  length (requests_of uid (user_data w)) ≤ 6
  ∧ (blocked_until_of uid (user_data w) ≠ None ↔
       length (requests_of uid (user_data w)) = 6).
Proof.
  intros Hr. pose proof (reachable_store_bounded _ _ Hr) as Hs.
  unfold requests_of, blocked_until_of.
  destruct (user_data w !! uid) as [d|] eqn:Hd; simpl.
  - specialize (Hs _ _ Hd). unfold entry_bounded, MAX_REQUESTS_PER_MINUTE in Hs.
    destruct (blocked_until d); split; try lia; split; (done || lia).
  - split; [lia |]. split; [done | lia].
Qed.

Lemma X4_history_bounded_witness :
  length (requests_of 2 (user_data (prompted_world sample_cfg))) ≤ 6
  ∧ (blocked_until_of 2 (user_data (prompted_world sample_cfg)) ≠ None ↔
       length (requests_of 2 (user_data (prompted_world sample_cfg))) = 6).
Proof.
  apply (X4_history_bounded sample_cfg).
  unfold prompted_world, run, six_greetings. simpl. repeat constructor.
Defined.

(** ** The threshold policy for any history *)

(** A greeting that the gate lets through, judged by the number [n] of
    requests on record once it has been recorded. *)
Lemma greeting_policy `{FL : Filters} cfg clk m w :
  let uid := from_user_id m in
  let w' := feed_update cfg clk m w in
  let n := length (requests_of uid (user_data w')) in
  CommandStart m = true →
  (is_blocked (now_is_blocked clk) uid (user_data w)).1.1 = false →
  1 ≤ n
  ∧ (n ≤ WARNING_THRESHOLD →
       sent w' = sent w ++ [(chat_id m, promo cfg)]
       ∧ blocked_until_of uid (user_data w') = None)
  ∧ (n = MAX_REQUESTS_PER_MINUTE →
       sent w' = sent w ++ [(chat_id m, answer warning_text false []); (chat_id m, promo cfg)]
       ∧ blocked_until_of uid (user_data w') = None)
  ∧ (MAX_REQUESTS_PER_MINUTE < n →
       sent w' = sent w ++ [(chat_id m, answer block_text false [])]
       ∧ blocked_until_of uid (user_data w') =
           Some (now_start clk + timedelta_minutes BLOCK_DURATION_MINUTES)%Z).
Proof.
  intros uid w' n Hs Hgate. subst n w' uid.
  rewrite feed_update_start, middleware_not_blocked, start_unfold by done. cbv zeta.
  assert (blocked_until_of (from_user_id m) (user_data (after_gate clk m w)) = None) as ->
    by (by apply is_blocked_false_free).
  set (kept := filter _ (requests_of _ _)).
  unfold WARNING_THRESHOLD, MAX_REQUESTS_PER_MINUTE.
  repeat case_bool_decide; cbn [user_data sent reply with_user_data after_gate];
    rewrite requests_of_insert, blocked_until_of_insert; cbn [requests blocked_until];
    rewrite length_app in *; simpl in *;
    (split; [lia |]); split_and!; intros; try lia; by rewrite <- ?app_assoc.
Qed.

(** X5: a greeting that the gate lets through is answered by the number [n]
    of requests on record after it: the promotional payload alone up to four,
    the warning and the payload at exactly five, the block notice alone from
    six on, which also sets the block to the clock reading plus three
    minutes; no other greeting sets a block. *)
Theorem X5_threshold_policy `{FL : Filters} cfg clk m w :
  let uid := from_user_id m in
  let w' := feed_update cfg clk m w in
  let n := length (requests_of uid (user_data w')) in
  CommandStart m = true →
  (is_blocked (now_is_blocked clk) uid (user_data w)).1.1 = false →
  1 ≤ n
  ∧ (n ≤ 4 →
       sent w' = sent w ++ [(chat_id m, promo cfg)]
       ∧ blocked_until_of uid (user_data w') = None)
  ∧ (n = 5 →
       sent w' = sent w ++ [(chat_id m, answer warning_text false []); (chat_id m, promo cfg)]
       ∧ blocked_until_of uid (user_data w') = None)
  ∧ (6 ≤ n →
       sent w' = sent w ++ [(chat_id m, answer block_text false [])]
       ∧ blocked_until_of uid (user_data w') = Some (now_start clk + timedelta_minutes 3)%Z).
Proof. exact (greeting_policy cfg clk m w). Qed.

Lemma X5_threshold_policy_witness :
  let w := run sample_cfg (take 4 (six_greetings 2)) initial_world in
  let m := msg 2 "/start" in
  let w' := feed_update sample_cfg (at_time (timedelta_seconds 70)) m w in
  sent w' = sent w ++ [(2%Z, promo sample_cfg)]
  ∧ blocked_until_of 2 (user_data w') = None.
Proof.
  intros w m w'.
  destruct (X5_threshold_policy sample_cfg (at_time (timedelta_seconds 70)) m w)
    as (_ & H & _); [reflexivity | reflexivity |].
  apply H. vm_compute. lia.
Defined.

Lemma greeting_after_expiry `{FL : Filters} cfg clk m w b :
  CommandStart m = true →
  blocked_until_of (from_user_id m) (user_data w) = Some b →
  (b < now_is_blocked clk)%Z →
  sent (feed_update cfg clk m w) = sent w ++ [(chat_id m, promo cfg)]
  ∧ requests_of (from_user_id m) (user_data (feed_update cfg clk m w))
    = [now_record_request clk]
  ∧ blocked_until_of (from_user_id m) (user_data (feed_update cfg clk m w)) = None.
Proof.
  intros Hs Hb Hlt. rewrite feed_update_start by done.
  rewrite (middleware_expired _ _ _ _ _ Hb Hlt), start_unfold. cbv zeta.
  cbn [user_data with_user_data]. rewrite requests_of_insert, blocked_until_of_insert.
  cbn [requests blocked_until fresh_entry]. rewrite filter_nil. simpl.
  by rewrite insert_insert_eq, requests_of_insert, blocked_until_of_insert.
Qed.

(** X6: after the greeting that blocks a user, every message of that user
    whose gate clock reads at most the blocking clock reading plus three
    minutes is dropped without a trace, and a greeting that comes later than
    that is served again as the first request of a new history. *)
Theorem X6_block_lasts_three_minutes `{FL : Filters} cfg clk m w :
  let uid := from_user_id m in
  let w' := feed_update cfg clk m w in
  let until := (now_start clk + timedelta_minutes 3)%Z in
  CommandStart m = true →
  (is_blocked (now_is_blocked clk) uid (user_data w)).1.1 = false →
  6 ≤ length (requests_of uid (user_data w')) →
  (∀ clk' m', from_user_id m' = uid → (now_is_blocked clk' ≤ until)%Z →
     feed_update cfg clk' m' w' = w')
  ∧ (∀ clk' m', from_user_id m' = uid → CommandStart m' = true →
       (until < now_is_blocked clk')%Z →
       sent (feed_update cfg clk' m' w') = sent w' ++ [(chat_id m', promo cfg)]
       ∧ requests_of uid (user_data (feed_update cfg clk' m' w')) = [now_record_request clk']
       ∧ blocked_until_of uid (user_data (feed_update cfg clk' m' w')) = None).
Proof.
  intros uid w' until Hs Hgate Hn.
  destruct (greeting_policy cfg clk m w Hs Hgate) as (_ & _ & _ & Hblock).
  destruct Hblock as [_ Hb]; [unfold MAX_REQUESTS_PER_MINUTE; exact Hn |].
  fold uid w' in Hb. change (Some _) with (Some until) in Hb. split.
  - intros clk' m' Hu Hle. subst uid. rewrite <- Hu in Hb.
    by apply (feed_update_blocked cfg clk' m' w' until).
  - intros clk' m' Hu Hs' Hlt. subst uid. rewrite <- Hu in Hb |- *.
    by apply (greeting_after_expiry cfg clk' m' w' until).
Qed.

Lemma X6_block_lasts_three_minutes_witness :
  let w := run sample_cfg (take 5 (six_greetings 2)) initial_world in
  let w' := feed_update sample_cfg (at_time (timedelta_seconds 5)) (msg 2 "/start") w in
  feed_update sample_cfg (at_time (timedelta_seconds 185)) (msg 2 "/clearcache") w' = w'.
Proof.
  intros w w'.
  destruct (X6_block_lasts_three_minutes sample_cfg (at_time (timedelta_seconds 5))
              (msg 2 "/start") w) as [H _];
    [reflexivity | reflexivity | vm_compute; lia |].
  apply H; [reflexivity | vm_compute; discriminate].
Defined.

(** ** Lookups and recordings *)

(** The verdict of a lookup, read off the block on record. *)
Lemma is_blocked_verdict now uid ud :
  (is_blocked now uid ud).1 =
  match blocked_until_of uid ud with
  | Some b => if decide (now ≤ b)%Z then (true, Some b) else (false, None)
  | None => (false, None)
  end.
Proof.
  destruct (blocked_until_of uid ud) as [b|] eqn:Hb.
  - case_decide.
    + by rewrite (is_blocked_active _ _ _ _ Hb).
    + by rewrite (is_blocked_expired _ _ _ _ Hb) by lia.
  - by rewrite (is_blocked_free _ _ _ Hb).
Qed.

(** X7: a block lookup adds no user to the store and removes none, a second
    lookup at the same time changes nothing more, and once a lookup has
    found the user free, every further lookup, at whatever time, finds the
    user free and leaves the store alone. *)
Theorem X7_lookup_stable now uid ud :
  dom (is_blocked now uid ud).2 = dom ud
  ∧ is_blocked now uid (is_blocked now uid ud).2 = is_blocked now uid ud
  ∧ ((is_blocked now uid ud).1.1 = false →
       ∀ later, is_blocked later uid (is_blocked now uid ud).2
                = ((false, None), (is_blocked now uid ud).2)).
Proof.
  destruct (blocked_until_of uid ud) as [b|] eqn:Hb.
  - destruct (decide (now ≤ b)%Z).
    + rewrite (is_blocked_active _ _ _ _ Hb) by done. simpl.
      by rewrite (is_blocked_active _ _ _ _ Hb).
    + rewrite (is_blocked_expired _ _ _ _ Hb) by lia. simpl.
      destruct (blocked_until_of_Some _ _ _ Hb) as (d & Hd & _).
      assert (∀ t, is_blocked t uid (<[uid:=fresh_entry]> ud)
                   = ((false, None), <[uid:=fresh_entry]> ud)) as Hfree.
      { intros t. apply is_blocked_free. by rewrite blocked_until_of_insert. }
      split_and!; [| apply Hfree | intros _; apply Hfree].
      apply dom_insert_lookup_L. by rewrite Hd.
  - rewrite (is_blocked_free _ _ _ Hb). simpl.
    split_and!; [done | by apply is_blocked_free | intros _ later; by apply is_blocked_free].
Qed.

Lemma X7_lookup_stable_witness :
  let ud := user_data blocked_world in
  let ud' := (is_blocked (timedelta_seconds 181) 1 ud).2 in
  is_blocked (timedelta_seconds 100) 1 ud' = ((false, None), ud').
Proof.
  intros ud ud'.
  destruct (X7_lookup_stable (timedelta_seconds 181) 1 ud) as (_ & _ & H).
  apply H. reflexivity.
Defined.

Lemma StronglySorted_filter {A} (R : relation A) (P : A → Prop)
    `{∀ x, Decision (P x)} (l : list A) :
  StronglySorted R l → StronglySorted R (filter P l).
Proof.
  induction 1 as [|x l Hl IH Hx]; [constructor |].
  destruct (decide (P x)).
  - rewrite filter_cons_True by done. constructor; [done |].
    apply list.Forall_forall. intros y Hy. apply list_elem_of_filter in Hy as [_ Hy].
    by eapply list.Forall_forall in Hx.
  - by rewrite filter_cons_False.
Qed.

(** X8: when the stored timestamps of a user are in non-decreasing order and
    none is later than [now], recording a request at [now] leaves them so:
    with a clock that does not run backwards a history stays ordered. *)
Theorem X8_history_stays_sorted now uid ud :
  StronglySorted Z.le (requests_of uid ud) →
  Forall (λ t, (t ≤ now)%Z) (requests_of uid ud) →
  StronglySorted Z.le (requests_of uid (record_request now uid ud))
  ∧ Forall (λ t, (t ≤ now)%Z) (requests_of uid (record_request now uid ud)).
Proof.
  intros Hsorted Hle. rewrite record_request_unfold, requests_of_insert. simpl.
  assert (Forall (λ t, (t ≤ now)%Z)
            (filter (λ t, (now - timedelta_minutes 1 < t)%Z) (requests_of uid ud))) as Hk.
  { apply list.Forall_forall. intros t Ht. apply list_elem_of_filter in Ht as [_ Ht].
    by eapply list.Forall_forall in Hle. }
  split.
  - apply StronglySorted_app_2.
    + intros t1 t2 H1 H2. apply list_elem_of_singleton in H2 as ->.
      by eapply list.Forall_forall in Hk.
    + by apply StronglySorted_filter.
    + repeat constructor.
  - apply Forall_app. split; [done |]. by apply Forall_singleton.
Qed.

Lemma X8_history_stays_sorted_witness :
  let ud := user_data blocked_world in
  StronglySorted Z.le (requests_of 1 (record_request (timedelta_seconds 30) 1 ud))
  ∧ Forall (λ t, (t ≤ timedelta_seconds 30)%Z)
           (requests_of 1 (record_request (timedelta_seconds 30) 1 ud)).
Proof.
  intros ud. apply X8_history_stays_sorted.
  - repeat constructor; vm_compute; discriminate.
  - repeat constructor; vm_compute; discriminate.
Defined.

(** X9: recording a request touches no other user, keeps the block on record
    and therefore the verdict of every lookup, puts [now] last in the
    history, and makes the history at least one and at most one longer than
    it was. *)
Theorem X9_record_request_frame now uid ud :
  (∀ other, other ≠ uid → record_request now uid ud !! other = ud !! other)
  ∧ blocked_until_of uid (record_request now uid ud) = blocked_until_of uid ud
  ∧ (∀ t u, (is_blocked t u (record_request now uid ud)).1 = (is_blocked t u ud).1)
  ∧ last (requests_of uid (record_request now uid ud)) = Some now
  ∧ 1 ≤ length (requests_of uid (record_request now uid ud))
      ≤ S (length (requests_of uid ud)).
Proof.
  assert (∀ u, blocked_until_of u (record_request now uid ud) = blocked_until_of u ud) as Hb.
  { intros u. rewrite record_request_unfold. destruct (decide (u = uid)) as [->|Hne].
    - by rewrite blocked_until_of_insert.
    - unfold blocked_until_of. by rewrite lookup_insert_ne. }
  split_and!.
  - intros other Hne. rewrite record_request_unfold. by rewrite lookup_insert_ne.
  - apply Hb.
  - intros t u. by rewrite !is_blocked_verdict, Hb.
  - rewrite record_request_unfold, requests_of_insert. simpl. apply last_snoc.
  - rewrite record_request_unfold, requests_of_insert. simpl. rewrite length_app. simpl. lia.
  - rewrite record_request_unfold, requests_of_insert. simpl. rewrite length_app. simpl.
    rewrite Nat.add_1_r. apply le_n_S, length_filter.
Qed.

Lemma X9_record_request_frame_witness :
  let ud := user_data blocked_world in
  (is_blocked (timedelta_seconds 100) 1 (record_request (timedelta_seconds 30) 1 ud)).1
  = (is_blocked (timedelta_seconds 100) 1 ud).1.
Proof.
  intros ud.
  destruct (X9_record_request_frame (timedelta_seconds 30) 1 ud) as (_ & _ & H & _).
  apply H.
Defined.

(** ** One turn of the password flow *)

(** X10: a free user without pending state sends the cache-clear command
    and, once that update has been handled, a message that neither command
    filter accepts.  The two replies are the prompt and then the verdict on
    the password, the session waits for the password in between, and in the
    end the FSM storage is back to what it was. *)
Theorem X10_prompt_attempt_cycle `{FL : Filters} cfg c1 c2 m1 m2 w :
  CommandStart m1 = false → Command "clearcache" m1 = true →
  CommandStart m2 = false → Command "clearcache" m2 = false →
  fsm_key m2 = fsm_key m1 →
  blocked_until_of (from_user_id m1) (user_data w) = None →
  get_state m1 w = None →
  let w1 := feed_update cfg c1 m1 w in
  let w2 := feed_update cfg c2 m2 w1 in
  sent w1 = sent w ++ [(chat_id m1, answer prompt_text false [])]
  ∧ get_state m1 w1 = Some waiting_for_password
  ∧ sent w2 = sent w1 ++ [(chat_id m2,
                           answer (if bool_decide (text m2 = CLEAR_CACHE_PASSWORD cfg)
                                   then cleared_text else wrong_text) false [])]
  ∧ fsm w2 = fsm w.
Proof.
  intros S1 K1 S2 K2 E2 Hfree Hidle w1 w2.
  assert (from_user_id m2 = from_user_id m1) as U2 by (by inversion E2).
  assert (w1 = cmd_clearcache m1 w) as Hw1.
  { unfold w1. by rewrite feed_update_clearcache, middleware_pass. }
  assert (get_state m1 w1 = Some waiting_for_password) as Hwait.
  { rewrite Hw1. unfold cmd_clearcache, get_state, set_state. cbn [fsm].
    apply lookup_insert_eq. }
  assert (w2 = process_clear_password cfg m2 w1) as Hw2.
  { unfold w2. rewrite feed_update_password, middleware_pass; try done.
    - rewrite U2, Hw1. exact Hfree.
    - unfold get_state in *. by rewrite E2. }
  split_and!; try done.
  - by rewrite Hw1.
  - by rewrite Hw2, process_clear_password_sent.
  - rewrite Hw2, Hw1. unfold process_clear_password, cmd_clearcache, set_state.
    rewrite E2. transitivity (delete (fsm_key m1) (<[fsm_key m1:=waiting_for_password]> (fsm w))).
    + by case_bool_decide.
    + by apply delete_insert_id.
Qed.

Lemma X10_prompt_attempt_cycle_witness :
  let w1 := feed_update sample_cfg (at_time 0) (msg 1 "/clearcache") initial_world in
  let w2 := feed_update sample_cfg (at_time 1) (msg 1 "wrong") w1 in
  sent w2 = sent w1 ++ [(1%Z, answer wrong_text false [])] ∧ fsm w2 = ∅.
Proof.
  intros w1 w2.
  destruct (X10_prompt_attempt_cycle sample_cfg (at_time 0) (at_time 1)
              (msg 1 "/clearcache") (msg 1 "wrong") initial_world)
    as (_ & _ & Hs & Hf); try reflexivity.
  split; [exact Hs | exact Hf].
Defined.

(** X11: after a password attempt with the right text, whoever greets next,
    blocked before or not, is served as a new user: the promotional payload
    is the only reply and the store holds this one user with this one
    request. *)
Theorem X11_clear_then_greet `{FL : Filters} cfg m w clk m' :
  text m = CLEAR_CACHE_PASSWORD cfg →
  CommandStart m' = true →
  let w1 := process_clear_password cfg m w in
  let w2 := feed_update cfg clk m' w1 in
  sent w2 = sent w1 ++ [(chat_id m', promo cfg)]
  ∧ user_data w2 = {[ from_user_id m' := {| requests := [now_record_request clk];
                                             blocked_until := None |} ]}.
Proof.
  intros Heq Hs w1 w2.
  assert (user_data w1 = ∅) as Hempty.
  { unfold w1, process_clear_password. by rewrite bool_decide_eq_true_2. }
  unfold w2. rewrite feed_update_start, middleware_pass, start_unfold; try done.
  - cbv zeta. rewrite Hempty. unfold requests_of, blocked_until_of.
    rewrite lookup_empty. simpl. by rewrite insert_empty.
  - rewrite Hempty. unfold blocked_until_of. by rewrite lookup_empty.
Qed.

Lemma X11_clear_then_greet_witness :
  let w1 := process_clear_password sample_cfg (msg 1 "secret") (prompted_world sample_cfg) in
  let w2 := feed_update sample_cfg (at_time (timedelta_seconds 8)) (msg 2 "/start") w1 in
  sent w2 = sent w1 ++ [(2%Z, promo sample_cfg)]
  ∧ user_data w2 = {[ 2%Z := {| requests := [timedelta_seconds 8]; blocked_until := None |} ]}.
Proof.
  intros w1 w2.
  apply (X11_clear_then_greet sample_cfg (msg 1 "secret") (prompted_world sample_cfg)
           (at_time (timedelta_seconds 8)) (msg 2 "/start")); reflexivity.
Defined.

(** ** Requests that are far apart *)

Lemma filter_none {A} (P : A → Prop) `{∀ x, Decision (P x)} (l : list A) :
  Forall (λ x, ¬ P x) l → filter P l = [].
Proof.
  induction 1 as [|x l Hx _ IH]; [done |]. by rewrite filter_cons_False.
Qed.

(** A greeting of a free user all of whose recorded requests are a minute
    old or older. *)
Lemma greeting_after_pause `{FL : Filters} cfg clk m w :
  CommandStart m = true →
  blocked_until_of (from_user_id m) (user_data w) = None →
  Forall (λ t, (t + timedelta_minutes 1 ≤ now_record_request clk)%Z)
         (requests_of (from_user_id m) (user_data w)) →
  sent (feed_update cfg clk m w) = sent w ++ [(chat_id m, promo cfg)]
  ∧ requests_of (from_user_id m) (user_data (feed_update cfg clk m w))
    = [now_record_request clk]
  ∧ blocked_until_of (from_user_id m) (user_data (feed_update cfg clk m w)) = None.
Proof.
  intros Hs Hfree Hold.
  rewrite feed_update_start, middleware_pass, start_unfold by done. cbv zeta.
  rewrite filter_none.
  - rewrite Hfree. simpl. by rewrite requests_of_insert, blocked_until_of_insert.
  - eapply Forall_impl; [exact Hold |]. simpl. intros t Ht. lia.
Qed.

(** X12: a free user who greets again and again, each time a minute or more
    after the request before, is never warned and never blocked: every
    greeting is answered with the promotional payload alone. *)
Theorem X12_spaced_greetings_pass `{FL : Filters} cfg uid events : ∀ w last,
  blocked_until_of uid (user_data w) = None →
  Forall (λ t, (t ≤ last)%Z) (requests_of uid (user_data w)) →
  Forall (λ e, from_user_id e.2 = uid ∧ CommandStart e.2 = true) events →
  spaced last events →
  sent (run cfg events w) = sent w ++ ((λ e, (chat_id e.2, promo cfg)) <$> events)
  ∧ blocked_until_of uid (user_data (run cfg events w)) = None.
Proof.
  induction events as [|[clk m] events IH]; intros w last Hfree Hlast Hev Hsp.
  - simpl. by rewrite app_nil_r.
  - apply Forall_cons in Hev as [[<- Hs] Hev]. destruct Hsp as [Hgap Hsp].
    simpl in *.
    destruct (greeting_after_pause cfg clk m w Hs Hfree) as (Hsent & Hreq & Hfree').
    { eapply Forall_impl; [exact Hlast |]. simpl. intros t Ht. lia. }
    change (run cfg ((clk, m) :: events) w) with (run cfg events (feed_update cfg clk m w)).
    destruct (IH (feed_update cfg clk m w) (now_record_request clk)) as [Hs' Hf']; try done.
    { rewrite Hreq. apply Forall_singleton. lia. }
    split; [| done]. rewrite Hs', Hsent. by rewrite <- app_assoc.
Qed.

Lemma X12_spaced_greetings_pass_witness :
  let events := (λ s, (at_time (timedelta_seconds s), msg 3 "/start"))
                  <$> [60; 120; 180; 240; 300; 360; 420]%Z in
  sent (run sample_cfg events initial_world)
    = [] ++ ((λ e, (chat_id e.2, promo sample_cfg)) <$> events)
  ∧ blocked_until_of 3 (user_data (run sample_cfg events initial_world)) = None.
Proof.
  intros events.
  apply (X12_spaced_greetings_pass sample_cfg 3 events initial_world 0%Z).
  - reflexivity.
  - constructor.
  - repeat constructor.
  - simpl. repeat split; vm_compute; discriminate.
Defined.

(** ** What a loaded module guarantees *)

(** X13: when the module loads, the settings are those of the environment,
    the token and the channel link are non-empty strings, so that the button
    of the promotional payload carries a link, and the warning is printed
    exactly when the password is missing or empty. *)
Theorem X13_loaded_settings environ cfg stdout :
  load_module environ = Loaded cfg stdout →
  cfg = read_settings environ
  ∧ (∃ token, BOT_TOKEN cfg = Some token ∧ token ≠ "")
  ∧ (∃ link, CHANNEL_LINK cfg = Some link ∧ link ≠ ""
             ∧ keyboard cfg = [[Button "🚀 Join Channel Now" (Some link)]])
  ∧ (stdout = [] ↔ truthy (CLEAR_CACHE_PASSWORD cfg) = true)
  ∧ (stdout = [password_warning] ↔ truthy (CLEAR_CACHE_PASSWORD cfg) = false).
Proof.
  assert (∀ v, truthy v = true → ∃ s, v = Some s ∧ s ≠ "") as Htruthy.
  { intros [s|] Hv; [| done]. exists s. split; [done |]. intros ->. done. }
  unfold load_module. cbv zeta.
  destruct (truthy (BOT_TOKEN (read_settings environ))) eqn:Hb; [| done].
  destruct (truthy (CHANNEL_LINK (read_settings environ))) eqn:Hc; [| done].
  destruct (truthy (CLEAR_CACHE_PASSWORD (read_settings environ))) eqn:Hp;
    simpl; intros [= <- <-]; rewrite Hp;
    (split; [done |]); (split; [by apply Htruthy |]);
    destruct (Htruthy _ Hc) as (link & Hl & Hne);
    (split; [exists link; unfold keyboard; by rewrite Hl |]); done.
Qed.

Lemma X13_loaded_settings_witness :
  ∃ link, CHANNEL_LINK cfg_without_password = Some link ∧ link ≠ ""
          ∧ keyboard cfg_without_password = [[Button "🚀 Join Channel Now" (Some link)]].
Proof.
  destruct (X13_loaded_settings environ_without_password cfg_without_password
              [password_warning]) as (_ & _ & H & _); [reflexivity |].
  exact H.
Defined.

(** ** The framework's filter on some messages *)

(** What the command filter of the bot [xk_bot] makes of some messages of
    user 1, who owes the password: a greeting command addressed to another
    bot is no greeting and is taken as the password attempt, while a greeting
    command followed by a no-break space and a photo captioned with the
    greeting command are greetings and leave the session waiting. *)
Example filter_routes :
  let clk := at_time (timedelta_seconds 1) in
  let served m := sent (feed_update sample_cfg clk m waiting_world)
                  = sent waiting_world ++ [(1%Z, promo sample_cfg)]
                  ∧ get_state m (feed_update sample_cfg clk m waiting_world)
                    = Some waiting_for_password in
  CommandStart (msg 1 "/start@other_bot") = false
  ∧ handled_as_password_attempt sample_cfg clk (msg 1 "/start@other_bot") waiting_world
  ∧ get_state (msg 1 "x") (feed_update sample_cfg clk (msg 1 "/start@other_bot") waiting_world)
    = None
  ∧ served (msg 1 "/start@XK_Bot")
  ∧ served (msg 1 ("/start" +:+ nbsp +:+ "now"))
  ∧ served (photo 1 "/start").
Proof. by split_and!; vm_compute. Qed.
